(** * AG PlagCheck: the upload script [app.py] and its [process] step

    The repository is one Streamlit script.  Streamlit executes the file from
    top to bottom on every interaction; [st.session_state] survives between
    runs, the module namespace does not.  The development below embeds

    - the values the script handles (Python [str] as a list of code points,
      [bytes], the dictionaries returned by [process], the session user);
    - one run of the script as a state-and-exception computation over the
      widget values of that run;
    - the module namespace of [app.py], against which the free name
      [extract] used by [process] is resolved when [process] is called.

    Lines 63-114 of the script (caption table, page styling, logo) only
    produce captions and markup and are not part of the model. *)

From Stdlib Require Import NArith Ascii String.
From stdpp Require Import gmap strings list fin_maps.

Local Open Scope string_scope.
Local Open Scope list_scope.
Local Open Scope nat_scope.

(** ** Python values *)

Module Py.

(** A Python [str] is a sequence of Unicode code points; [len] counts
    code points. *)
Definition str := list N.

Definition bytes := list Byte.byte.

(** A string literal of the source (ASCII text). *)
Definition lit (s : string) : str :=
  (fun a => N_of_ascii a) <$> list_ascii_of_string s.

(** [str.isspace] on one code point: the table of CPython's
    [_PyUnicode_IsWhitespace]. *)
Definition isspace (c : N) : bool :=
  ((9 <=? c) && (c <=? 13) || (28 <=? c) && (c <=? 32)
   || (c =? 133) || (c =? 160) || (c =? 5760)
   || (8192 <=? c) && (c <=? 8202)
   || (c =? 8232) || (c =? 8233) || (c =? 8239) || (c =? 8287)
   || (c =? 12288))%N.

Fixpoint lstrip (s : str) : str :=
  match s with
  | [] => []
  | c :: r => if isspace c then lstrip r else s
  end.

Definition rstrip (s : str) : str := rev (lstrip (rev s)).

(** [s.strip()] without argument. *)
Definition strip (s : str) : str := rstrip (lstrip s).

(** Exceptions.  [StopException] and [RerunException] are Streamlit's
    script-control exceptions, raised by [st.stop()] and [st.rerun()];
    they derive from [BaseException], so [except Exception] lets them
    through. *)
Inductive exn :=
  | NameError (name : string)
  | TypeError (what : string)
  | AttributeError (attr : string)
  | KeyError (key : string)
  | PyException (cls : string) (msg : str)
  | StopException
  | RerunException.

Definition is_Exception (e : exn) : bool :=
  match e with
  | StopException | RerunException => false
  | _ => true
  end.

(** [str(e)] *)
Definition exn_str (e : exn) : str :=
  match e with
  | NameError n => lit "name '" ++ lit n ++ lit "' is not defined"
  | TypeError w => lit w
  | AttributeError a => lit "object has no attribute '" ++ lit a ++ lit "'"
  | KeyError k => lit "'" ++ lit k ++ lit "'"
  | PyException _ msg => msg
  | StopException | RerunException => []
  end.

Inductive outcome (A : Type) :=
  | Ret (a : A)
  | Raise (e : exn).
Arguments Ret {A} a.
Arguments Raise {A} e.

End Py.
Export Py.


(** ** Computations: state passing with exceptions

    A raised exception keeps the state reached so far, as in Python. *)

Definition M (S A : Type) : Type := S -> outcome A * S.

Definition ret {S A} (a : A) : M S A := fun s => (Ret a, s).

Definition raise {S A} (e : exn) : M S A := fun s => (Raise e, s).

Definition bind {S A B} (m : M S A) (k : A -> M S B) : M S B :=
  fun s =>
    match m s with
    | (Ret a, s') => k a s'
    | (Raise e, s') => (Raise e, s')
    end.

#[global] Instance M_ret {S} : MRet (M S) := fun A => ret.
#[global] Instance M_bind {S} : MBind (M S) := fun A B k m => bind m k.

(** [try: body / except Exception as e: handler(e)] *)
Definition try_except {S A} (body : M S A) (handler : exn -> M S A) : M S A :=
  fun s =>
    match body s with
    | (Raise e, s') => if is_Exception e then handler e s' else (Raise e, s')
    | r => r
    end.

Definition when {S} (b : bool) (m : M S unit) : M S unit :=
  if b then m else ret tt.

(** [for x in xs: body(x)] *)
Fixpoint for_each {S A} (xs : list A) (body : A -> M S unit) : M S unit :=
  match xs with
  | [] => ret tt
  | x :: r => body x;; for_each r body
  end.

(** ** The state a run works on *)

(** The five models behind the [@st.cache_resource] loaders. *)
Inductive model :=
  | SentenceEmbedder    (* SentenceTransformer('all-MiniLM-L6-v2') *)
  | CrossEncoderModel   (* CrossEncoder('cross-encoder/ms-marco-MiniLM-L-6-v2') *)
  | SpacyPipeline       (* spacy.load("en_core_web_sm") *)
  | Gpt2Tokenizer       (* GPT2Tokenizer.from_pretrained("gpt2") *)
  | Gpt2Model.          (* GPT2LMHeadModel.from_pretrained("gpt2"), in eval mode *)

#[global] Instance model_eq_dec : EqDecision model.
Proof. solve_decision. Defined.

(** An object handed back by Supabase as [user.user].  The script only
    tests its truth value and, in the sidebar, calls
    [.get('email', 'Guest')] on it; the object is modelled by its answers
    to these two operations. *)
Record sb_user := {
  obj_truth : bool;
  obj_get_email : outcome str
}.

(** What [st.session_state.user] can hold. *)
Inductive user_value :=
  | UNone
  | UDict (d : gmap string str)
  | UObject (o : sb_user).

(** [{"id": "guest", "email": "guest@local"}] *)
Definition guest_user : user_value :=
  UDict {[ "id" := lit "guest"; "email" := lit "guest@local" ]}.

(** The truth value tested by [if st.session_state.user]. *)
Definition truthy (u : user_value) : bool :=
  match u with
  | UNone => false
  | UDict d => negb (bool_decide (d = ∅))
  | UObject o => obj_truth o
  end.

(** What the page shows. *)
Inductive ui_event :=
  | UiSuccess (msg : str)
  | UiError (msg : str)
  | UiInfo (msg : str)
  | UiSidebarError (msg : str)
  | UiDebugParams (params : gmap string str)
  | UiTextArea (label value : str).

(** The state Python code of the script can read and write:
    [session_user] is the entry ["user"] of [st.session_state] ([None] when
    the key is absent), [cache] the models [st.cache_resource] holds,
    [loader_calls] the loader invocations so far, [page] the output. *)
Record pystate := {
  session_user : option user_value;
  cache : list model;
  loader_calls : list model;
  page : list ui_event
}.

Definition set_session_user (u : user_value) (p : pystate) : pystate :=
  {| session_user := Some u; cache := cache p;
     loader_calls := loader_calls p; page := page p |}.

Definition show (e : ui_event) (p : pystate) : pystate :=
  {| session_user := session_user p; cache := cache p;
     loader_calls := loader_calls p; page := page p ++ [e] |}.

(** *** Lazy models (lines 41-61)

    A [@st.cache_resource] function builds its value on the first call and
    returns the cached one afterwards. *)
Definition cache_resource (m : model) : M pystate model :=
  fun p =>
    (Ret m,
     {| session_user := session_user p;
        cache := if bool_decide (m ∈ cache p) then cache p else cache p ++ [m];
        loader_calls := loader_calls p ++ [m];
        page := page p |}).

Definition load_embedder : M pystate model := cache_resource SentenceEmbedder.
Definition load_cross_encoder : M pystate model := cache_resource CrossEncoderModel.
Definition load_nlp : M pystate model := cache_resource SpacyPipeline.
Definition load_tokenizer : M pystate model := cache_resource Gpt2Tokenizer.
Definition load_gpt_model : M pystate model := cache_resource Gpt2Model.

(** ** The module namespace *)

(** [process] calls [extract(file_bytes, fn)] and applies [.strip()] to the
    result: a binding of the name that fits this use is a function of two
    arguments returning a [str], free to raise and to touch the state. *)
Definition extractor : Type := bytes -> str -> M pystate str.

(** What a module-level name is bound to. *)
Inductive gobj :=
  | GModule
  | GClass
  | GFunction
  | GValue
  | GExtractor (f : extractor).

Abbreviation globals := (gmap string gobj).

(** The names [app.py] binds at module level, by line 190 where [process]
    is called.  Names bound on some paths only ([email], [col1], [col2],
    [user], [f], [res]) are included.  Python's builtins hold no [extract]
    either, so the module namespace decides the lookup. *)
Definition app_globals : globals :=
  list_to_map [
    ("st", GModule); ("hashlib", GModule); ("re", GModule); ("io", GModule);
    ("asyncio", GModule); ("aiohttp", GModule); ("requests", GModule);
    ("dataclass", GFunction); ("fitz", GModule); ("nltk", GModule);
    ("word_tokenize", GFunction); ("sent_tokenize", GFunction);
    ("TfidfVectorizer", GClass); ("cosine_similarity", GFunction);
    ("SentenceTransformer", GClass); ("util", GModule); ("CrossEncoder", GClass);
    ("GPT2Tokenizer", GClass); ("GPT2LMHeadModel", GClass); ("torch", GModule);
    ("SequenceMatcher", GClass); ("FPDF", GClass); ("spacy", GModule);
    ("create_client", GFunction); ("Client", GClass); ("scholarly", GValue);
    ("supabase_url", GValue); ("supabase_key", GValue); ("supabase", GValue);
    ("logout", GFunction);
    ("load_embedder", GFunction); ("load_cross_encoder", GFunction);
    ("load_nlp", GFunction); ("load_tokenizer", GFunction);
    ("load_gpt_model", GFunction);
    ("LANGUAGES", GValue); ("lang", GValue); ("txt", GValue);
    ("show_logo", GFunction);
    ("email", GValue); ("col1", GValue); ("col2", GValue);
    ("query_params", GValue); ("user", GValue);
    ("tab1", GValue); ("tab2", GValue); ("tab3", GValue);
    ("process", GFunction);
    ("files", GValue); ("f", GValue); ("res", GValue)
  ].

(** Calling the global [name] with [(file_bytes, fn)].  An unbound name is a
    [NameError]; a binding that is no two-argument extractor is reported as
    a [TypeError]. *)
Definition call_global (G : globals) (name : string)
    (file_bytes : bytes) (fn : str) : M pystate str :=
  match G !! name with
  | None => raise (NameError name)
  | Some (GExtractor f) => f file_bytes fn
  | Some _ => raise (TypeError name)
  end.

(** ** [process] (lines 177-182) *)

(** The dictionaries [process] returns: string keys, [str] values. *)
Abbreviation dict := (gmap string str).

Definition min_chars : nat := 200.

Definition process (G : globals) (file_bytes : bytes) (fn : str)
    (enable_global : bool) : M pystate dict :=
  text ← call_global G "extract" file_bytes fn;
  if length (strip text) <? min_chars
  then ret {[ "err" := lit "File too short"; "text" := text ]}
  else ret {[ "text" := text; "fn" := fn ]}.

(** ** One run of the script *)

(** An [UploadedFile]: [f.name] and the bytes [f.read()] returns. *)
Record upload := {
  name : str;
  content : bytes
}.

(** An exception raised inside the Supabase client: its class and message. *)
Record failure := {
  failure_class : string;
  failure_msg : str
}.

(** What [supabase.auth.get_user()] answers: it raises, it returns [None],
    or it returns a response whose attribute [user] is [None] or an object. *)
Inductive get_user_answer :=
  | GetUserRaises (e : failure)
  | GetUserNone
  | GetUserResponse (user : option sb_user).

(** The widget values and the answers of Supabase during one run. *)
Record inputs := {
  in_logout : bool;                 (* st.button(txt["logout"]) *)
  in_sign_out : option failure;     (* supabase.auth.sign_out() raising *)
  in_email : str;                   (* st.text_input(txt["email"]) *)
  in_send_magic : bool;             (* st.button(txt["send_magic"]) *)
  in_sign_in : option failure;      (* sign_in_with_otp raising *)
  in_guest : bool;                  (* st.button(txt["guest"]) *)
  in_query : gmap string str;       (* st.query_params.to_dict() *)
  in_get_user : get_user_answer;    (* supabase.auth.get_user() *)
  in_files : list upload            (* what st.file_uploader returns *)
}.

Definition external (o : option failure) : M pystate unit :=
  match o with
  | None => ret tt
  | Some e => raise (PyException (failure_class e) (failure_msg e))
  end.

(** [supabase.auth.get_user().user] *)
Definition supabase_get_user (i : inputs) : M pystate user_value :=
  match in_get_user i with
  | GetUserRaises e => raise (PyException (failure_class e) (failure_msg e))
  | GetUserNone => raise (AttributeError "user")
  | GetUserResponse None => ret UNone
  | GetUserResponse (Some o) => ret (UObject o)
  end.

Definition st_success (msg : str) : M pystate unit :=
  fun p => (Ret tt, show (UiSuccess msg) p).
Definition st_error (msg : str) : M pystate unit :=
  fun p => (Ret tt, show (UiError msg) p).
Definition st_info (msg : str) : M pystate unit :=
  fun p => (Ret tt, show (UiInfo msg) p).
Definition st_sidebar_error (msg : str) : M pystate unit :=
  fun p => (Ret tt, show (UiSidebarError msg) p).
Definition st_sidebar_json (q : gmap string str) : M pystate unit :=
  fun p => (Ret tt, show (UiDebugParams q) p).
Definition st_text_area (label value : str) : M pystate unit :=
  fun p => (Ret tt, show (UiTextArea label value) p).

Definition st_stop : M pystate unit := raise StopException.
Definition st_rerun : M pystate unit := raise RerunException.

(** [st.session_state.user] read and written. *)
Definition get_user : M pystate user_value :=
  fun p =>
    match session_user p with
    | Some u => (Ret u, p)
    | None => (Raise (AttributeError "user"), p)
    end.

Definition put_user (u : user_value) : M pystate unit :=
  fun p => (Ret tt, set_session_user u p).

(** Lines 32-33. *)
Definition init_session : M pystate unit :=
  fun p =>
    match session_user p with
    | None => (Ret tt, set_session_user UNone p)
    | Some _ => (Ret tt, p)
    end.

(** Lines 35-38. *)
Definition logout (i : inputs) : M pystate unit :=
  external (in_sign_out i);;
  put_user UNone;;
  st_rerun.

(** [st.session_state.user.get('email', 'Guest')] *)
Definition user_get_email (u : user_value) : M pystate str :=
  match u with
  | UNone => raise (AttributeError "get")
  | UDict d => ret (default (lit "Guest") (d !! "email"))
  | UObject o => fun p => (obj_get_email o, p)
  end.

(** Lines 118-142: the panel shown to a logged-in user, or the login form. *)
Definition auth_panel (i : inputs) : M pystate unit :=
  u ← get_user;
  if truthy u then
    email ← user_get_email u;
    st_success (lit "Logged in as: " ++ email);;
    when (in_logout i) (logout i)
  else
    let email := in_email i in
    when (in_send_magic i)
      (if bool_decide (email = [])
       then st_error (lit "Enter your email")
       else try_except
              (external (in_sign_in i);;
               st_success
                 (lit "Magic link sent! Check your email and click the link."))
              (fun e => st_error (lit "Error: " ++ exn_str e)));;
    when (in_guest i) (put_user guest_user;; st_rerun).

(** Lines 144-148: no user, no page. *)
Definition auth_gate : M pystate unit :=
  u ← get_user;
  when (negb (truthy u)) st_stop;;
  st_info (lit "Private & secure").

(** Lines 117-148. *)
Definition sidebar (i : inputs) : M pystate unit :=
  auth_panel i;;
  auth_gate.

(** Lines 151-170; [st.query_params.clear()] only edits the URL. *)
Definition login_callback (i : inputs) : M pystate unit :=
  let query_params := in_query i in
  when (negb (bool_decide (query_params = ∅))) (st_sidebar_json query_params);;
  when (bool_decide ("access_token" ∈ dom query_params)
        || bool_decide ("type" ∈ dom query_params))
    (try_except
       (u ← supabase_get_user i;
        if truthy u then
          put_user u;;
          st_success (lit "Logged in successfully! " ++ [127881%N]);;
          st_rerun
        else st_error (lit "No user returned from Supabase"))
       (fun e =>
          st_error (lit "Login failed: " ++ exn_str e);;
          st_sidebar_error (lit "Detailed error: " ++ exn_str e))).

(** A record of one call of [process]: the session user at that moment and
    the three arguments. *)
Record call := {
  call_user : option user_value;
  call_bytes : bytes;
  call_fn : str;
  call_flag : bool
}.

(** A run's state: what Python sees, and the calls of [process] so far. *)
Record state := {
  py : pystate;
  calls : list call
}.

Definition lift {A} (m : M pystate A) : M state A :=
  fun s => let (r, p) := m (py s) in (r, {| py := p; calls := calls s |}).

Definition call_process (G : globals) (file_bytes : bytes) (fn : str)
    (enable_global : bool) : M state dict :=
  fun s =>
    lift (process G file_bytes fn enable_global)
      {| py := py s;
         calls := calls s ++ [ {| call_user := session_user (py s);
                                  call_bytes := file_bytes;
                                  call_fn := fn;
                                  call_flag := enable_global |} ] |}.

(** The [type=] argument of the uploader at line 186. *)
Definition upload_types : list string := ["pdf"; "docx"; "txt"].

(** [st.file_uploader("Upload files", type=..., accept_multiple_files=True)]:
    the restriction to [type] is applied by the widget; the run receives the
    list the widget returns. *)
Definition st_file_uploader (type : list string) (i : inputs) : list upload :=
  in_files i.

(** [res[key]] *)
Definition subscript (d : dict) (key : string) : M pystate str :=
  match d !! key with
  | Some v => ret v
  | None => raise (KeyError key)
  end.

(** Lines 190-195: the body of the loop over the uploaded files. *)
Definition check_file (G : globals) (f : upload) : M state unit :=
  res ← call_process G (content f) (name f) false;
  if bool_decide ("err" ∈ dom res) then
    err ← lift (subscript res "err");
    lift (st_error (name f ++ lit ": " ++ err))
  else
    lift (st_success (name f ++ lit " uploaded!"));;
    text ← lift (subscript res "text");
    lift (st_text_area (lit "Extracted text") text).

(** Lines 184-195. *)
Definition check_tab (G : globals) (i : inputs) : M state unit :=
  let files := st_file_uploader upload_types i in
  match files with
  | [] => ret tt
  | _ => for_each files (check_file G)
  end.

(** Lines 197-205: the two placeholder tabs and the sidebar note. *)
Definition closing_tabs : M pystate unit :=
  st_info (lit "Database view coming soon");;
  st_info (lit "Login test version").

(** The script from line 32 on (lines 23-29 download tokenizer data and
    build the Supabase client; a failure there ends the run before any of
    the code below). *)
Definition tabs (G : globals) (i : inputs) : M state unit :=
  check_tab G i;;
  lift closing_tabs.

Definition script (G : globals) (i : inputs) : M state unit :=
  lift init_session;;
  lift (sidebar i);;
  lift (login_callback i);;
  tabs G i.

(** A run starts with no call of [process] made. *)
Definition run_script (G : globals) (i : inputs) (p : pystate)
    : outcome unit * state :=
  script G i {| py := p; calls := [] |}.

(** ** Sample bindings used to exercise the definitions *)

(** A text extractor that decodes the bytes as Latin-1 and ignores the
    file name. *)
Definition latin1 (file_bytes : bytes) : str :=
  (fun b => Byte.to_N b) <$> file_bytes.

Definition latin1_extract : extractor :=
  fun file_bytes _ => ret (latin1 file_bytes).

(** The module namespace with [extract] bound in addition. *)
Definition with_extract (f : extractor) : globals :=
  <["extract" := GExtractor f]> app_globals.

Definition fresh_session : pystate :=
  {| session_user := None; cache := []; loader_calls := []; page := [] |}.

Definition guest_session : pystate :=
  {| session_user := Some guest_user; cache := []; loader_calls := [];
     page := [] |}.

(** "hi" surrounded by blanks, and a text of 250 letters. *)
Definition short_bytes : bytes :=
  [Byte.x20; Byte.x68; Byte.x69; Byte.x0a].
Definition long_bytes : bytes := repeat Byte.x61 250.


(** ** Notions the properties are stated with *)

(** [m] takes every state to a state related to it by [R], whether it
    returns or raises. *)
Definition keeps {S A} (R : S -> S -> Prop) (m : M S A) : Prop :=
  forall s, R s (m s).2.

(** [Q] is kept. *)
Definition Qrel (Q : pystate -> Prop) (p p' : pystate) : Prop := Q p -> Q p'.

(** While [Q] holds, it keeps holding and every new call satisfies [P]. *)
Definition calls_rel (Q : pystate -> Prop) (P : call -> Prop)
    (s s' : state) : Prop :=
  Q (py s) ->
  Q (py s') /\ exists new, calls s' = calls s ++ new /\ Forall P new.

(** An extractor that leaves [st.session_state.user] alone. *)
Definition extract_keeps_user (G : globals) : Prop :=
  forall f file_bytes fn p,
    G !! "extract" = Some (GExtractor f) ->
    session_user (f file_bytes fn p).2 = session_user p.

(** The values the script itself stores in [st.session_state.user]: [None]
    (lines 33 and 37), the guest record (line 141), an object returned by
    Supabase (line 162). *)
Definition stored_by_script (u : user_value) : Prop :=
  u = UNone \/ u = guest_user \/ exists o, u = UObject o.

(** Nothing was built and no loader was called between [p] and [p']. *)
Definition same_models (p p' : pystate) : Prop :=
  cache p' = cache p /\ loader_calls p' = loader_calls p.

(** The file name ends in a dot followed by one of the uploader's types. *)
Definition kind_allowed (fn : str) : bool :=
  existsb (fun t => bool_decide (lit ("." +:+ t) `suffix_of` fn)) upload_types.

(** An exception of class [UnsupportedFormat]. *)
Definition is_unsupported (e : exn) : bool :=
  match e with
  | PyException cls _ => bool_decide (cls = "UnsupportedFormat")
  | _ => false
  end.

(** A result that rejects the upload as [UnsupportedFormat]: the exception,
    or an error dictionary carrying that name. *)
Definition rejected_unsupported (r : outcome dict) : bool :=
  match r with
  | Raise e => is_unsupported e
  | Ret d => bool_decide (d !! "err" = Some (lit "UnsupportedFormat"))
  end.

(** A sample run: the guest, two uploads. *)
Definition sample_inputs : inputs :=
  {| in_logout := false; in_sign_out := None; in_email := [];
     in_send_magic := false; in_sign_in := None; in_guest := false;
     in_query := ∅; in_get_user := GetUserNone;
     in_files := [ {| name := lit "note.txt"; content := short_bytes |};
                   {| name := lit "essay.pdf"; content := long_bytes |} ] |}.

(** ** Further notions and sample values *)

(** The call of [process] the loop makes for an upload, in Python state [p]. *)
Definition call_of (p : pystate) (up : upload) : call :=
  {| call_user := session_user p; call_bytes := content up;
     call_fn := name up; call_flag := false |}.

(** The file a call was made for, and the file an upload holds. *)
Definition call_args (c : call) : bytes * str := (call_bytes c, call_fn c).
Definition upload_args (up : upload) : bytes * str := (content up, name up).

(** Two runs whose login form is filled and clicked alike. *)
Definition same_login_form (i i' : inputs) : Prop :=
  in_email i = in_email i' /\ in_send_magic i = in_send_magic i'
  /\ in_sign_in i = in_sign_in i' /\ in_guest i = in_guest i'.

(** The session has no user: the key is absent or holds [None]. *)
Definition no_user (p : pystate) : Prop :=
  session_user p = None \/ session_user p = Some UNone.

(** What the login form leaves on the page of a run without a user. *)
Definition login_form_output (i : inputs) : list ui_event :=
  if in_send_magic i then
    if bool_decide (in_email i = []) then [UiError (lit "Enter your email")]
    else match in_sign_in i with
         | None =>
             [UiSuccess
                (lit "Magic link sent! Check your email and click the link.")]
         | Some e => [UiError (lit "Error: " ++ failure_msg e)]
         end
  else [].

(** 300 blanks. *)
Definition blank_bytes : bytes := repeat Byte.x20 300.

(** An extractor that fails on every file. *)
Definition failing_extract : extractor :=
  fun _ _ => raise (PyException "ValueError" (lit "cannot parse")).

(** A run in which only the guest button is pressed; one in which only the
    logout button is pressed; one in which the magic link is asked for
    while Supabase is down. *)
Definition guest_click : inputs :=
  {| in_logout := false; in_sign_out := None; in_email := [];
     in_send_magic := false; in_sign_in := None; in_guest := true;
     in_query := ∅; in_get_user := GetUserNone; in_files := [] |}.

Definition logout_click : inputs :=
  {| in_logout := true; in_sign_out := None; in_email := [];
     in_send_magic := false; in_sign_in := None; in_guest := false;
     in_query := ∅; in_get_user := GetUserNone; in_files := [] |}.

Definition supabase_down : failure :=
  {| failure_class := "ConnectError"; failure_msg := lit "connection refused" |}.

Definition magic_link_click : inputs :=
  {| in_logout := false; in_sign_out := None; in_email := lit "a@b.org";
     in_send_magic := true; in_sign_in := Some supabase_down;
     in_guest := false; in_query := ∅; in_get_user := GetUserNone;
     in_files := [] |}.

Definition failed_logout_click : inputs :=
  {| in_logout := true; in_sign_out := Some supabase_down; in_email := [];
     in_send_magic := false; in_sign_in := None; in_guest := false;
     in_query := ∅; in_get_user := GetUserNone; in_files := [] |}.

(** A user object of Supabase, and a run in which a magic link is opened:
    the query carries the token and Supabase knows the user. *)
Definition signed_in_user : sb_user :=
  {| obj_truth := true; obj_get_email := Ret (lit "a@b.org") |}.

Definition link_opened : inputs :=
  {| in_logout := false; in_sign_out := None; in_email := [];
     in_send_magic := false; in_sign_in := None; in_guest := false;
     in_query := {[ "access_token" := lit "abc"; "type" := lit "magiclink" ]};
     in_get_user := GetUserResponse (Some signed_in_user);
     in_files := [] |}.

(** The greeting of the sidebar. *)
Definition greeting (email : str) : ui_event :=
  UiSuccess (lit "Logged in as: " ++ email).

(** * Properties *)

(** ** Stripping *)

Lemma lstrip_length (s : str) : length (lstrip s) <= length s.
Proof.
  induction s as [|c r IH]; simpl; [lia|].
  destruct (isspace c); simpl; lia.
Qed.

Lemma strip_length (s : str) : length (strip s) <= length s.
Proof.
  unfold strip, rstrip. rewrite length_rev.
  etransitivity; [apply lstrip_length|].
  rewrite length_rev. apply lstrip_length.
Qed.

(** ** [process] step by step *)

Lemma app_globals_extract : app_globals !! "extract" = None.
Proof. reflexivity. Qed.

Lemma with_extract_lookup (f : extractor) :
  with_extract f !! "extract" = Some (GExtractor f).
Proof. unfold with_extract. apply lookup_insert_eq. Qed.

Lemma call_global_bound (G : globals) (f : extractor) file_bytes fn :
  G !! "extract" = Some (GExtractor f) ->
  call_global G "extract" file_bytes fn = f file_bytes fn.
Proof. intros H. unfold call_global. by rewrite H. Qed.

(** [process] is the extraction followed by the length test. *)
Lemma process_eq (G : globals) file_bytes fn enable_global (p : pystate) :
  process G file_bytes fn enable_global p =
  match call_global G "extract" file_bytes fn p with
  | (Ret text, p') =>
      (Ret (if length (strip text) <? min_chars
            then {[ "err" := lit "File too short"; "text" := text ]}
            else {[ "text" := text; "fn" := fn ]}), p')
  | (Raise e, p') => (Raise e, p')
  end.
Proof.
  unfold process, mbind, M_bind, bind.
  destruct (call_global G "extract" file_bytes fn p) as [[text|e] p']; [|done].
  by destruct (length (strip text) <? min_chars).
Qed.

Lemma dom_too_short (text : str) :
  dom ({[ "err" := lit "File too short"; "text" := text ]} : dict)
  = ({[ "err"; "text" ]} : gset string).
Proof. rewrite dom_insert_L, dom_singleton_L. done. Qed.

Lemma dom_success (text fn : str) :
  dom ({[ "text" := text; "fn" := fn ]} : dict)
  = ({[ "text"; "fn" ]} : gset string).
Proof. rewrite dom_insert_L, dom_singleton_L. done. Qed.

(** C1: when the text [extract] returns is, stripped, shorter than the
    minimum of 200 characters, [process] returns the error dictionary: it
    has the key "err" (with the message "File too short"), and it is not a
    success result made of the text and the file name only. *)
Theorem process_too_short (G : globals) (f : extractor)
    file_bytes fn enable_global text (p p' : pystate) :
  G !! "extract" = Some (GExtractor f) ->
  f file_bytes fn p = (Ret text, p') ->
  length (strip text) < min_chars ->
  exists res : dict,
    process G file_bytes fn enable_global p = (Ret res, p')
    /\ "err" ∈ dom res
    /\ res !! "err" = Some (lit "File too short")
    /\ res !! "fn" = None
    /\ dom res ≠ ({[ "text"; "fn" ]} : gset string).
Proof.
  intros HG Hf Hlen.
  rewrite process_eq, (call_global_bound G f) by done. rewrite Hf.
  apply Nat.ltb_lt in Hlen. rewrite Hlen.
  eexists. split; [done|].
  rewrite dom_too_short.
  split; [set_solver|]. split; [done|]. split; [done|].
  intros Heq. assert (Herr : "err" ∈ ({[ "text"; "fn" ]} : gset string)).
  { rewrite <- Heq. set_solver. }
  set_solver.
Qed.

Lemma process_too_short_witness :
  exists res : dict,
    process (with_extract latin1_extract) short_bytes (lit "note.txt") false
      fresh_session = (Ret res, fresh_session)
    /\ "err" ∈ dom res
    /\ res !! "err" = Some (lit "File too short")
    /\ res !! "fn" = None
    /\ dom res ≠ ({[ "text"; "fn" ]} : gset string).
Proof.
  apply (process_too_short (with_extract latin1_extract) latin1_extract
           short_bytes (lit "note.txt") false
           (latin1 short_bytes)).
  - apply with_extract_lookup.
  - reflexivity.
  - vm_compute. lia.
Defined.

Lemma call_global_unbound file_bytes fn (p : pystate) :
  call_global app_globals "extract" file_bytes fn p
  = (Raise (NameError "extract"), p).
Proof. unfold call_global. by rewrite app_globals_extract. Qed.

Lemma process_unbound file_bytes fn enable_global (p : pystate) :
  process app_globals file_bytes fn enable_global p
  = (Raise (NameError "extract"), p).
Proof. by rewrite process_eq, call_global_unbound. Qed.

(** C2: in the module as it is written, [process] raises [NameError] for
    the name [extract] on every input, with the state untouched, before any
    length is looked at; it never returns a value. *)
Theorem process_raises_NameError file_bytes fn enable_global (p : pystate) :
  process app_globals file_bytes fn enable_global p
    = (Raise (NameError "extract"), p)
  /\ call_global app_globals "extract" file_bytes fn p
    = (Raise (NameError "extract"), p)
  /\ forall (res : dict) (p' : pystate),
       process app_globals file_bytes fn enable_global p ≠ (Ret res, p').
Proof.
  rewrite process_unbound, call_global_unbound. split; [done|]. split; [done|].
  intros res p'. discriminate.
Qed.

(** C5: when the text [extract] returns is, stripped, at least 200
    characters long, [process] returns exactly the dictionary of the
    extracted text and the file name: these two keys and no other. *)
Theorem process_success (G : globals) (f : extractor)
    file_bytes fn enable_global text (p p' : pystate) :
  G !! "extract" = Some (GExtractor f) ->
  f file_bytes fn p = (Ret text, p') ->
  min_chars <= length (strip text) ->
  process G file_bytes fn enable_global p
    = (Ret {[ "text" := text; "fn" := fn ]}, p')
  /\ dom ({[ "text" := text; "fn" := fn ]} : dict)
     = ({[ "text"; "fn" ]} : gset string)
  /\ forall key : string, key ≠ "text" -> key ≠ "fn" ->
       ({[ "text" := text; "fn" := fn ]} : dict) !! key = None.
Proof.
  intros HG Hf Hlen.
  rewrite process_eq, (call_global_bound G f) by done. rewrite Hf.
  apply Nat.ltb_ge in Hlen. rewrite Hlen.
  split; [done|]. split; [apply dom_success|].
  intros key H1 H2. rewrite lookup_insert_ne by done.
  by apply lookup_singleton_ne.
Qed.

Lemma process_success_witness :
  process (with_extract latin1_extract) long_bytes (lit "essay.pdf") false
    guest_session
    = (Ret {[ "text" := latin1 long_bytes; "fn" := lit "essay.pdf" ]},
       guest_session)
  /\ dom ({[ "text" := latin1 long_bytes; "fn" := lit "essay.pdf" ]} : dict)
     = ({[ "text"; "fn" ]} : gset string)
  /\ forall key : string, key ≠ "text" -> key ≠ "fn" ->
       ({[ "text" := latin1 long_bytes; "fn" := lit "essay.pdf" ]} : dict)
         !! key = None.
Proof.
  apply (process_success (with_extract latin1_extract) latin1_extract).
  - apply with_extract_lookup.
  - reflexivity.
  - vm_compute. lia.
Defined.

(** C9: when [process] rejects a text as too short, the value returned is
    exactly [{"err": "File too short", "text": text}], where [text] is the
    whole extracted text, not its stripped form. *)
Theorem process_too_short_keeps_text (G : globals) (f : extractor)
    file_bytes fn enable_global text (p p' : pystate) :
  G !! "extract" = Some (GExtractor f) ->
  f file_bytes fn p = (Ret text, p') ->
  length (strip text) < min_chars ->
  process G file_bytes fn enable_global p
    = (Ret {[ "err" := lit "File too short"; "text" := text ]}, p')
  /\ ({[ "err" := lit "File too short"; "text" := text ]} : dict) !! "text"
     = Some text.
Proof.
  intros HG Hf Hlen.
  rewrite process_eq, (call_global_bound G f) by done. rewrite Hf.
  apply Nat.ltb_lt in Hlen. by rewrite Hlen.
Qed.

Lemma process_too_short_keeps_text_witness :
  process (with_extract latin1_extract) short_bytes (lit "note.txt") true
    guest_session
    = (Ret {[ "err" := lit "File too short"; "text" := latin1 short_bytes ]},
       guest_session)
  /\ ({[ "err" := lit "File too short"; "text" := latin1 short_bytes ]} : dict)
       !! "text"
     = Some (latin1 short_bytes).
Proof.
  apply (process_too_short_keeps_text (with_extract latin1_extract)
           latin1_extract).
  - apply with_extract_lookup.
  - reflexivity.
  - vm_compute. lia.
Defined.

(** The text kept in the error result of the sample is longer than its
    stripped form: the surrounding blanks are still there. *)
Example short_text_not_stripped :
  latin1 short_bytes = [32; 104; 105; 10]%N
  /\ strip (latin1 short_bytes) = [104; 105]%N.
Proof. split; reflexivity. Qed.

(** ** Relations kept by every step of a computation *)

Section Keeps.
Context {S : Type} (R : S -> S -> Prop).
Hypothesis R_refl : forall s, R s s.
Hypothesis R_trans : forall a b c, R a b -> R b c -> R a c.

Lemma keeps_ret {A} (a : A) : keeps R (ret a).
Proof using R_refl. intros s. apply R_refl. Qed.

Lemma keeps_raise {A} (e : exn) : keeps R (raise e : M S A).
Proof using R_refl. intros s. apply R_refl. Qed.

Lemma keeps_bind {A B} (m : M S A) (k : A -> M S B) :
  keeps R m -> (forall a, keeps R (k a)) -> keeps R (m ≫= k).
Proof using R_trans.
  intros Hm Hk s. unfold mbind, M_bind, bind.
  specialize (Hm s). destruct (m s) as [[a|e] s1]; simpl in *; [|done].
  eapply R_trans; [exact Hm | apply Hk].
Qed.

Lemma keeps_when (b : bool) (m : M S unit) : keeps R m -> keeps R (when b m).
Proof using R_refl. intros Hm. destruct b; [done | apply keeps_ret]. Qed.

Lemma keeps_try_except {A} (body : M S A) (handler : exn -> M S A) :
  keeps R body -> (forall e, keeps R (handler e)) ->
  keeps R (try_except body handler).
Proof using R_trans.
  intros Hb Hh s. unfold try_except.
  specialize (Hb s). destruct (body s) as [[a|e] s1]; simpl in *; [done|].
  destruct (is_Exception e); [|done].
  eapply R_trans; [exact Hb | apply Hh].
Qed.

Lemma keeps_for_each {A} (xs : list A) (body : A -> M S unit) :
  (forall x, keeps R (body x)) -> keeps R (for_each xs body).
Proof using R_refl R_trans.
  intros Hb. induction xs as [|x r IH]; simpl.
  - apply keeps_ret.
  - apply keeps_bind; [apply Hb | intros _; apply IH].
Qed.
End Keeps.

(** ** What [lift] and [call_process] do to a run's state *)

Lemma lift_eq {A} (m : M pystate A) (s : state) :
  lift m s = ((m (py s)).1, {| py := (m (py s)).2; calls := calls s |}).
Proof. unfold lift. by destruct (m (py s)). Qed.

Lemma call_process_eq (G : globals) file_bytes fn enable_global (s : state) :
  call_process G file_bytes fn enable_global s =
  ((process G file_bytes fn enable_global (py s)).1,
   {| py := (process G file_bytes fn enable_global (py s)).2;
      calls := calls s ++ [ {| call_user := session_user (py s);
                               call_bytes := file_bytes;
                               call_fn := fn;
                               call_flag := enable_global |} ] |}).
Proof. unfold call_process. by rewrite lift_eq. Qed.

(** The state [process] leaves is the state the call of [extract] leaves. *)
Lemma process_state (G : globals) file_bytes fn enable_global (p : pystate) :
  (process G file_bytes fn enable_global p).2
  = (call_global G "extract" file_bytes fn p).2.
Proof.
  rewrite process_eq.
  by destruct (call_global G "extract" file_bytes fn p) as [[text|e] p'].
Qed.

(** ** The calls of [process] a run makes

    [Q] is a property of the Python state that displaying output and the
    extractor keep; [P] a property of a call that follows from [Q] at the
    call, for the flag the script passes. *)

Section Calls.
Variable G : globals.
Variable Q : pystate -> Prop.
Variable P : call -> Prop.

Hypothesis Q_show : forall e p, Q p -> Q (show e p).
Hypothesis Q_extract : forall f file_bytes fn p,
  G !! "extract" = Some (GExtractor f) -> Q p -> Q (f file_bytes fn p).2.
Hypothesis P_call : forall p file_bytes fn,
  Q p -> P {| call_user := session_user p; call_bytes := file_bytes;
              call_fn := fn; call_flag := false |}.

Lemma calls_rel_refl s : calls_rel Q P s s.
Proof. intros HQ. split; [done|]. exists []. by rewrite app_nil_r. Qed.

Lemma calls_rel_trans a b c :
  calls_rel Q P a b -> calls_rel Q P b c -> calls_rel Q P a c.
Proof.
  intros Hab Hbc HQ. destruct (Hab HQ) as (HQb & n1 & E1 & F1).
  destruct (Hbc HQb) as (HQc & n2 & E2 & F2). split; [done|].
  exists (n1 ++ n2). rewrite E2, E1, app_assoc. split; [done|].
  by apply Forall_app.
Qed.

Lemma keeps_lift {A} (m : M pystate A) :
  keeps (Qrel Q) m -> keeps (calls_rel Q P) (lift m).
Proof.
  intros Hm s HQ. rewrite lift_eq. simpl. split; [by apply Hm|].
  exists []. by rewrite app_nil_r.
Qed.

Lemma Qrel_show (e : ui_event) : keeps (Qrel Q) (fun p => (Ret tt, show e p)).
Proof using Q_show. intros p HQ. by apply Q_show. Qed.

Lemma Qrel_subscript (d : dict) key : keeps (Qrel Q) (subscript d key).
Proof. intros p HQ. unfold subscript. by destruct (d !! key). Qed.

Lemma Qrel_process file_bytes fn enable_global :
  keeps (Qrel Q) (process G file_bytes fn enable_global).
Proof using Q_extract.
  intros p HQ. rewrite process_state. unfold call_global.
  destruct (G !! "extract") as [[| | | |f]|] eqn:E; try done.
  by eapply Q_extract.
Qed.

Lemma calls_rel_call_process file_bytes fn :
  keeps (calls_rel Q P) (call_process G file_bytes fn false).
Proof using Q_extract P_call.
  intros s HQ. rewrite call_process_eq. simpl.
  split; [by apply Qrel_process|].
  eexists. split; [done|]. apply Forall_singleton. by apply P_call.
Qed.

Lemma calls_rel_check_file (f : upload) : keeps (calls_rel Q P) (check_file G f).
Proof using Q_show Q_extract P_call.
  unfold check_file.
  apply keeps_bind; [apply calls_rel_trans | apply calls_rel_call_process |].
  intros res. destruct (bool_decide ("err" ∈ dom res)).
  - apply keeps_bind; [apply calls_rel_trans | |].
    + apply keeps_lift, Qrel_subscript.
    + intros err. apply keeps_lift, Qrel_show.
  - apply keeps_bind; [apply calls_rel_trans | |].
    + apply keeps_lift, Qrel_show.
    + intros _. apply keeps_bind; [apply calls_rel_trans | |].
      * apply keeps_lift, Qrel_subscript.
      * intros text. apply keeps_lift, Qrel_show.
Qed.

Lemma calls_rel_check_tab (i : inputs) : keeps (calls_rel Q P) (check_tab G i).
Proof using Q_show Q_extract P_call.
  unfold check_tab.
  destruct (st_file_uploader upload_types i) as [|f r] eqn:E.
  - apply keeps_ret, calls_rel_refl.
  - apply keeps_for_each;
      [apply calls_rel_refl | apply calls_rel_trans | apply calls_rel_check_file].
Qed.

Lemma calls_rel_closing_tabs : keeps (calls_rel Q P) (lift closing_tabs).
Proof using Q_show.
  apply keeps_lift. unfold closing_tabs.
  apply keeps_bind; [unfold Qrel; auto | apply Qrel_show |].
  intros _. apply Qrel_show.
Qed.

(** The part of the script that runs once the user is let in. *)
Lemma calls_rel_tabs (i : inputs) : keeps (calls_rel Q P) (tabs G i).
Proof using Q_show Q_extract P_call.
  unfold tabs. apply keeps_bind; [apply calls_rel_trans | apply calls_rel_check_tab |].
  intros _. apply calls_rel_closing_tabs.
Qed.
End Calls.

(** ** The sidebar and the login callback *)

(** Unfolds the primitive steps of the script and splits on every test. *)
Ltac step_through :=
  unfold logout in *;
  unfold when, try_except, external, user_get_email, supabase_get_user,
    get_user, put_user, st_success, st_error, st_info, st_sidebar_error,
    st_sidebar_json, st_text_area, st_stop, st_rerun in *;
  unfold mbind, M_bind, bind, raise, ret in *;
  repeat (case_match; simplify_eq/=; try done).

Lemma init_session_eq (p : pystate) :
  init_session p
  = (Ret tt, match session_user p with
             | None => set_session_user UNone p
             | Some _ => p
             end).
Proof. unfold init_session. by destruct (session_user p). Qed.

(** Where the panel returns, it leaves the session user as it was: logging
    out and entering as guest both end the run with [st.rerun()]. *)
Lemma auth_panel_returns (i : inputs) (p p' : pystate) :
  auth_panel i p = (Ret tt, p') -> session_user p' = session_user p.
Proof. unfold auth_panel. intros H. step_through. Qed.

(** The gate lets through truthy users only. *)
Lemma auth_gate_returns (p p' : pystate) :
  auth_gate p = (Ret tt, p') ->
  exists u, session_user p = Some u /\ session_user p' = Some u
            /\ truthy u = true.
Proof.
  unfold auth_gate. intros H. step_through.
  eexists. split; [done|]. split; [done|]. by apply negb_false_iff.
Qed.

Lemma sidebar_returns (i : inputs) (p p' : pystate) :
  sidebar i p = (Ret tt, p') ->
  exists u, session_user p = Some u /\ session_user p' = Some u
            /\ truthy u = true.
Proof.
  unfold sidebar. intros H. unfold mbind at 1, M_bind, bind in H.
  destruct (auth_panel i p) as [[[]|e] p1] eqn:E1; [|done].
  apply auth_panel_returns in E1. apply auth_gate_returns in H.
  destruct H as (u & H1 & H2 & H3). exists u. by rewrite <- E1.
Qed.

(** Where the callback returns, it leaves the session user as it was: a
    completed login ends the run with [st.rerun()]. *)
Lemma login_callback_returns (i : inputs) (p p' : pystate) :
  login_callback i p = (Ret tt, p') -> session_user p' = session_user p.
Proof. unfold login_callback. intros H. step_through. Qed.

(** Without a user the sidebar ends the run: [st.rerun()] when the guest
    button was pressed, [st.stop()] otherwise. *)
Lemma sidebar_stops (i : inputs) (p : pystate) :
  session_user p = Some UNone ->
  (sidebar i p).1 = Raise (if in_guest i then RerunException else StopException).
Proof.
  intros Hu. unfold sidebar, auth_panel, auth_gate.
  step_through.
Qed.

(** ** A run, in two parts

    Either the run ends before the tabs, with no call of [process] made, or
    it reaches the tabs with the truthy user it started with. *)
Lemma run_script_cases (G : globals) (i : inputs) (p : pystate) :
  (exists e s', run_script G i p = (Raise e, s') /\ calls s' = [])
  \/ (exists u p3,
        session_user p = Some u /\ truthy u = true
        /\ session_user p3 = Some u
        /\ run_script G i p = tabs G i {| py := p3; calls := [] |}).
Proof.
  unfold run_script, script, mbind, M_bind, bind.
  rewrite lift_eq, init_session_eq. cbn [fst snd py calls].
  set (p1 := match session_user p with
             | Some _ => p
             | None => set_session_user UNone p
             end).
  rewrite lift_eq. cbn [fst snd py calls].
  destruct (sidebar i p1) as [[[]|e] p2] eqn:E2; cbn [fst snd];
    [|left; eauto].
  rewrite lift_eq. cbn [fst snd py calls].
  destruct (login_callback i p2) as [[[]|e] p3] eqn:E3; cbn [fst snd];
    [|left; eauto].
  right. apply sidebar_returns in E2 as (u & H1 & H2 & H3).
  apply login_callback_returns in E3.
  exists u, p3. repeat split.
  - subst p1. destruct (session_user p) eqn:E; simpl in H1;
      [congruence | by simplify_eq/=].
  - exact H3.
  - congruence.
Qed.

(** ** The flag [enable_global] *)

(** C4: [process] gives the same result and leaves the same state whether
    global search is enabled or disabled, on every file and file name and
    under every binding of [extract]; and every call the script makes
    passes [False] for the flag. *)
Theorem enable_global_is_ignored (G : globals) file_bytes fn
    (p : pystate) (i : inputs) :
  process G file_bytes fn true p = process G file_bytes fn false p
  /\ Forall (fun c => call_flag c = false) (calls (run_script G i p).2).
Proof.
  split; [by rewrite !process_eq|].
  destruct (run_script_cases G i p) as [(e & s' & E & Hc)|(u & p3 & _ & _ & _ & E)];
    rewrite E; simpl.
  - rewrite Hc. constructor.
  - destruct (calls_rel_tabs G (fun _ => True)
                (fun c => call_flag c = false)) with (i := i)
      (s := {| py := p3; calls := [] |}) as (_ & new & Hnew & HF); try done.
    rewrite Hnew. done.
Qed.

(** ** Who is present when [process] is called *)

Lemma app_globals_keeps_user : extract_keeps_user app_globals.
Proof. intros f file_bytes fn p H. by rewrite app_globals_extract in H. Qed.

Lemma latin1_keeps_user : extract_keeps_user (with_extract latin1_extract).
Proof.
  intros f file_bytes fn p H. rewrite with_extract_lookup in H.
  by simplify_eq.
Qed.

Lemma run_script_no_user (G : globals) (i : inputs) (p : pystate) :
  session_user p = None \/ session_user p = Some UNone ->
  (run_script G i p).1
    = Raise (if in_guest i then RerunException else StopException)
  /\ calls (run_script G i p).2 = [].
Proof.
  intros Hu. unfold run_script, script, mbind, M_bind, bind.
  rewrite lift_eq, init_session_eq. cbn [fst snd py calls].
  set (p1 := match session_user p with
             | Some _ => p
             | None => set_session_user UNone p
             end).
  assert (H1 : session_user p1 = Some UNone).
  { subst p1. destruct Hu as [Hu|Hu]; rewrite Hu; [done | exact Hu]. }
  rewrite lift_eq. cbn [fst snd py calls].
  pose proof (sidebar_stops i p1 H1) as Hs.
  destruct (sidebar i p1) as [r p2]. simpl in Hs. by subst r.
Qed.

(** C10: when the extractor leaves the session user alone, every call of
    [process] in a run happens with the user the run started with, and
    that user is truthy, hence not [None]; a run that starts without a
    user ends in the sidebar ([st.stop()], or [st.rerun()] after the guest
    button) with no call of [process] made. *)
Theorem process_only_with_user (G : globals) (i : inputs) (p : pystate) :
  extract_keeps_user G ->
  Forall (fun c => call_user c = session_user p
                   /\ exists u, call_user c = Some u
                                /\ truthy u = true /\ u ≠ UNone)
    (calls (run_script G i p).2)
  /\ (session_user p = None \/ session_user p = Some UNone ->
      (run_script G i p).1
        = Raise (if in_guest i then RerunException else StopException)
      /\ calls (run_script G i p).2 = []).
Proof.
  intros Hkeep. split; [|apply run_script_no_user].
  destruct (run_script_cases G i p)
    as [(e & s' & E & Hc)|(u & p3 & Hp & Ht & H3 & E)]; rewrite E; simpl.
  - rewrite Hc. constructor.
  - destruct (calls_rel_tabs G (fun q => session_user q = Some u)
                (fun c => call_user c = Some u)) with (i := i)
      (s := {| py := p3; calls := [] |}) as (_ & new & Hnew & HF); try done.
    { intros f file_bytes fn q HG Hq. by rewrite (Hkeep f). }
    rewrite Hnew. simpl. eapply Forall_impl; [exact HF|].
    intros c Hc. simpl in Hc. rewrite Hp. split; [done|].
    exists u. split; [done|]. split; [done|].
    intros ->. discriminate.
Qed.

Lemma process_only_with_user_witness :
  Forall (fun c => call_user c = session_user guest_session
                   /\ exists u, call_user c = Some u
                                /\ truthy u = true /\ u ≠ UNone)
    (calls (run_script (with_extract latin1_extract) sample_inputs
              guest_session).2)
  /\ (session_user guest_session = None
      \/ session_user guest_session = Some UNone ->
      (run_script (with_extract latin1_extract) sample_inputs
         guest_session).1
        = Raise (if in_guest sample_inputs
                 then RerunException else StopException)
      /\ calls (run_script (with_extract latin1_extract) sample_inputs
                  guest_session).2 = []).
Proof.
  apply (process_only_with_user (with_extract latin1_extract) sample_inputs
           guest_session).
  exact latin1_keeps_user.
Defined.

(** The sample run calls [process] twice, and the same run without a user
    stops before the tabs. *)
Example sample_run_calls :
  length (calls (run_script (with_extract latin1_extract) sample_inputs
                   guest_session).2) = 2
  /\ (run_script (with_extract latin1_extract) sample_inputs guest_session).1
     = Ret tt
  /\ (run_script (with_extract latin1_extract) sample_inputs fresh_session).1
     = Raise StopException
  /\ (run_script app_globals sample_inputs guest_session).1
     = Raise (NameError "extract").
Proof. repeat split; vm_compute; reflexivity. Qed.

(** ** The models *)

(** What a call of a loader does, for comparison. *)
Example load_embedder_is_seen :
  loader_calls (load_embedder fresh_session).2 = [SentenceEmbedder]
  /\ cache (load_embedder fresh_session).2 = [SentenceEmbedder]
  /\ cache ((load_embedder;; load_embedder) fresh_session).2
     = [SentenceEmbedder].
Proof. repeat split. Qed.

Lemma stored_none : stored_by_script UNone.
Proof. by left. Qed.

Lemma stored_guest : stored_by_script guest_user.
Proof. right. by left. Qed.

Lemma stored_object (o : sb_user) : stored_by_script (UObject o).
Proof. right. right. by exists o. Qed.

Create HintDb stored.
#[global] Hint Resolve stored_none stored_guest stored_object : stored.

Section Prefix.
Variable Q : pystate -> Prop.
Hypothesis Q_show : forall e p, Q p -> Q (show e p).
Hypothesis Q_put : forall u p,
  stored_by_script u -> Q p -> Q (set_session_user u p).

Lemma Qrel_init_session : keeps (Qrel Q) init_session.
Proof using Q_put.
  intros p HQ. rewrite init_session_eq. simpl.
  destruct (session_user p); auto with stored.
Qed.

Lemma Qrel_sidebar (i : inputs) : keeps (Qrel Q) (sidebar i).
Proof using Q_show Q_put.
  intros p HQ. unfold sidebar, auth_panel, auth_gate.
  step_through; auto with stored.
Qed.

Lemma Qrel_login_callback (i : inputs) : keeps (Qrel Q) (login_callback i).
Proof using Q_show Q_put.
  intros p HQ. unfold login_callback.
  step_through; auto with stored.
Qed.
End Prefix.

(** A property of the Python state that output, the values the script
    stores and the extractor all keep is kept by a whole run. *)
Lemma Q_run_script (G : globals) (Q : pystate -> Prop) (i : inputs)
    (p : pystate) :
  (forall e q, Q q -> Q (show e q)) ->
  (forall u q, stored_by_script u -> Q q -> Q (set_session_user u q)) ->
  (forall f file_bytes fn q,
     G !! "extract" = Some (GExtractor f) -> Q q -> Q (f file_bytes fn q).2) ->
  Q p -> Q (py (run_script G i p).2).
Proof.
  intros Q_show Q_put Q_extract HQ.
  pose proof (calls_rel_refl Q (fun _ => True)) as HR.
  pose proof (calls_rel_trans Q (fun _ => True)) as HT.
  assert (H : keeps (calls_rel Q (fun _ => True)) (script G i)).
  { unfold script.
    apply keeps_bind; [done | by apply keeps_lift, Qrel_init_session |].
    intros _. apply keeps_bind; [done | by apply keeps_lift, Qrel_sidebar |].
    intros _.
    apply keeps_bind; [done | by apply keeps_lift, Qrel_login_callback |].
    intros _. by apply calls_rel_tabs. }
  by apply (H {| py := p; calls := [] |}).
Qed.

Lemma same_models_script (i : inputs) (p : pystate) :
  same_models p (py (run_script app_globals i p).2).
Proof.
  by apply (Q_run_script app_globals (same_models p)).
Qed.

(** X15: when the extractor leaves the session user alone, the session
    user at the end of a run is the one the run started with, or a value
    the script itself stores: [None], the guest record, or an object
    returned by Supabase. *)
Lemma run_stores_user (G : globals) (i : inputs) (p : pystate) :
  extract_keeps_user G ->
  session_user (py (run_script G i p).2) = session_user p
  \/ exists u, session_user (py (run_script G i p).2) = Some u
               /\ stored_by_script u.
Proof.
  intros Hkeep.
  apply (Q_run_script G
           (fun q => session_user q = session_user p
                     \/ exists u, session_user q = Some u
                                  /\ stored_by_script u)); [done | | |].
  - intros u q Hu _. right. by exists u.
  - intros f file_bytes fn q HG HQ. by rewrite (Hkeep f).
  - by left.
Qed.

(** C3: [process] does nothing to the state beyond what the call of
    [extract] does; in the module as it is written the call of [process],
    and the whole run around it, build no model and call no loader. *)
Theorem process_uses_no_model (G : globals) file_bytes fn enable_global
    (p : pystate) (i : inputs) :
  (process G file_bytes fn enable_global p).2
    = (call_global G "extract" file_bytes fn p).2
  /\ same_models p (process app_globals file_bytes fn enable_global p).2
  /\ same_models p (py (run_script app_globals i p).2).
Proof.
  split; [apply process_state|]. split; [|apply same_models_script].
  rewrite process_unbound. by split.
Qed.

(** ** The kind of an uploaded file *)

Example kinds :
  kind_allowed (lit "essay.pdf") = true
  /\ kind_allowed (lit "essay.docx") = true
  /\ kind_allowed (lit "note.txt") = true
  /\ kind_allowed (lit "setup.exe") = false
  /\ kind_allowed (lit "pdf") = false.
Proof. repeat split; vm_compute; reflexivity. Qed.

(** C6, as stated, fails: a file of another kind is not rejected as
    [UnsupportedFormat].  In the module as it is written [process] ends in
    the same [NameError] as for any file; with an extractor bound it
    returns the success result. *)
Lemma exe_upload_not_rejected :
  kind_allowed (lit "setup.exe") = false
  /\ process app_globals long_bytes (lit "setup.exe") false guest_session
     = (Raise (NameError "extract"), guest_session)
  /\ rejected_unsupported
       (process app_globals long_bytes (lit "setup.exe") false
          guest_session).1 = false
  /\ process (with_extract latin1_extract) long_bytes (lit "setup.exe") false
       guest_session
     = (Ret {[ "text" := latin1 long_bytes; "fn" := lit "setup.exe" ]},
        guest_session)
  /\ rejected_unsupported
       (process (with_extract latin1_extract) long_bytes (lit "setup.exe")
          false guest_session).1 = false.
Proof. repeat split; vm_compute; reflexivity. Qed.

(** C6, amended: the uploader is given the types pdf, docx and txt, and
    [process] has no rejection by kind of its own: in the module as it is
    written it never yields [UnsupportedFormat], and under any binding of
    [extract] it yields one exactly when the call of [extract] raised it. *)
Theorem upload_kind_unchecked (G : globals) file_bytes fn enable_global
    (p : pystate) :
  upload_types = ["pdf"; "docx"; "txt"]
  /\ rejected_unsupported
       (process app_globals file_bytes fn enable_global p).1 = false
  /\ rejected_unsupported (process G file_bytes fn enable_global p).1
     = match (call_global G "extract" file_bytes fn p).1 with
       | Raise e => is_unsupported e
       | Ret _ => false
       end.
Proof.
  split; [done|]. split; [by rewrite process_unbound|].
  rewrite process_eq.
  destruct (call_global G "extract" file_bytes fn p) as [[text|e] p'];
    [|done].
  simpl. destruct (length (strip text) <? min_chars); simpl.
  - apply bool_decide_eq_false. rewrite lookup_insert_eq.
    intros H. simplify_eq. 
  - apply bool_decide_eq_false. rewrite lookup_insert_ne by done.
    by rewrite lookup_singleton_ne.
Qed.

(** * Further properties of the script *)

(** ** The length test *)

Lemma lstrip_blank (s : str) :
  Forall (fun c => isspace c = true) s -> lstrip s = [].
Proof.
  induction 1 as [|c r Hc _ IH]; [done|]. simpl. by rewrite Hc.
Qed.

Lemma strip_blank (s : str) :
  Forall (fun c => isspace c = true) s -> strip s = [].
Proof. intros H. unfold strip, rstrip. by rewrite (lstrip_blank s H). Qed.

(** X1: a text of fewer than 200 characters, and a text made of whitespace
    only however long, is rejected as too short. *)
Theorem process_rejects_blank (G : globals) (f : extractor)
    file_bytes fn enable_global text (p p' : pystate) :
  G !! "extract" = Some (GExtractor f) ->
  f file_bytes fn p = (Ret text, p') ->
  length text < min_chars \/ Forall (fun c => isspace c = true) text ->
  process G file_bytes fn enable_global p
  = (Ret {[ "err" := lit "File too short"; "text" := text ]}, p').
Proof.
  intros HG Hf Hshort.
  rewrite process_eq, (call_global_bound G f) by done. rewrite Hf.
  assert (Hlen : length (strip text) < min_chars).
  { destruct Hshort as [H|H].
    - pose proof (strip_length text). lia.
    - rewrite (strip_blank text H). unfold min_chars. simpl. lia. }
  apply Nat.ltb_lt in Hlen. by rewrite Hlen.
Qed.

Lemma process_rejects_blank_witness :
  process (with_extract latin1_extract) blank_bytes (lit "blank.txt") false
    guest_session
  = (Ret {[ "err" := lit "File too short"; "text" := latin1 blank_bytes ]},
     guest_session).
Proof.
  apply (process_rejects_blank (with_extract latin1_extract) latin1_extract).
  - apply with_extract_lookup.
  - reflexivity.
  - right. refine (bool_decide_unpack _ _). vm_compute. exact I.
Defined.

(** ** The loop over the uploaded files *)

(** One turn of the loop: the call is recorded; an exception of the
    extraction ends the turn; otherwise the verdict is displayed. *)
Lemma check_file_eq (G : globals) (up : upload) (s : state) :
  check_file G up s =
  match call_global G "extract" (content up) (name up) (py s) with
  | (Ret text, p') =>
      (Ret tt,
       {| py := if length (strip text) <? min_chars
                then show (UiError (name up ++ lit ": " ++ lit "File too short")) p'
                else show (UiTextArea (lit "Extracted text") text)
                       (show (UiSuccess (name up ++ lit " uploaded!")) p');
          calls := calls s ++ [call_of (py s) up] |})
  | (Raise e, p') =>
      (Raise e, {| py := p'; calls := calls s ++ [call_of (py s) up] |})
  end.
Proof.
  unfold check_file, mbind, M_bind, bind.
  rewrite call_process_eq, process_eq.
  destruct (call_global G "extract" (content up) (name up) (py s))
    as [[text|e] p']; [|done].
  cbn [fst snd].
  destruct (length (strip text) <? min_chars).
  - rewrite bool_decide_eq_true_2
      by (apply elem_of_dom; rewrite lookup_insert_eq; eauto).
    unfold lift, subscript, st_error. rewrite lookup_insert_eq. done.
  - rewrite bool_decide_eq_false_2
      by (rewrite elem_of_dom, lookup_insert_ne, lookup_singleton_ne by done;
          by intros [? ?]).
    unfold lift, subscript, st_success, st_text_area.
    rewrite lookup_insert_eq. done.
Qed.

(** X2: a turn of the loop fails exactly when [process] fails, and with
    the same exception: reading ["err"] and ["text"] from the result never
    raises [KeyError]. *)
Theorem check_file_outcome (G : globals) (up : upload) (s : state) :
  (check_file G up s).1
  = match (process G (content up) (name up) false (py s)).1 with
    | Ret _ => Ret tt
    | Raise e => Raise e
    end.
Proof.
  rewrite check_file_eq, process_eq.
  by destruct (call_global G "extract" (content up) (name up) (py s))
    as [[text|e] p'].
Qed.

(** X3: what the page shows for one upload.  A file found too short gets
    the error line "<name>: File too short" and its text is not displayed;
    an accepted file gets "<name> uploaded!" and a text area holding the
    whole extracted text.  The call is recorded in both cases. *)
Theorem check_file_display (G : globals) (f : extractor) (up : upload)
    (s : state) text (p' : pystate) :
  G !! "extract" = Some (GExtractor f) ->
  f (content up) (name up) (py s) = (Ret text, p') ->
  check_file G up s
  = (Ret tt,
     {| py := show (if length (strip text) <? min_chars
                    then UiError (name up ++ lit ": File too short")
                    else UiTextArea (lit "Extracted text") text)
                (if length (strip text) <? min_chars then p'
                 else show (UiSuccess (name up ++ lit " uploaded!")) p');
        calls := calls s ++ [call_of (py s) up] |}).
Proof.
  intros HG Hf. rewrite check_file_eq, (call_global_bound G f) by done.
  rewrite Hf. by destruct (length (strip text) <? min_chars).
Qed.

Lemma check_file_display_witness :
  check_file (with_extract latin1_extract)
    {| name := lit "note.txt"; content := short_bytes |}
    {| py := guest_session; calls := [] |}
  = (Ret tt,
     {| py := show (if length (strip (latin1 short_bytes)) <? min_chars
                    then UiError (lit "note.txt" ++ lit ": File too short")
                    else UiTextArea (lit "Extracted text") (latin1 short_bytes))
                (if length (strip (latin1 short_bytes)) <? min_chars
                 then guest_session
                 else show (UiSuccess (lit "note.txt" ++ lit " uploaded!"))
                        guest_session);
        calls := [] ++ [call_of guest_session
                          {| name := lit "note.txt";
                             content := short_bytes |}] |}).
Proof.
  apply (check_file_display (with_extract latin1_extract) latin1_extract
           {| name := lit "note.txt"; content := short_bytes |}
           {| py := guest_session; calls := [] |}).
  - apply with_extract_lookup.
  - reflexivity.
Defined.

(** X4: an exception raised by the extractor is not turned into an error
    result: it leaves [process] as it is, ends the loop at that file with
    nothing displayed for it, and the files after it are not processed. *)
Theorem extractor_failure_escapes (G : globals) (f : extractor)
    (up : upload) (rest : list upload) (s : state) e (p' : pystate) :
  G !! "extract" = Some (GExtractor f) ->
  f (content up) (name up) (py s) = (Raise e, p') ->
  process G (content up) (name up) false (py s) = (Raise e, p')
  /\ for_each (up :: rest) (check_file G) s
     = (Raise e, {| py := p'; calls := calls s ++ [call_of (py s) up] |}).
Proof.
  intros HG Hf. split.
  - rewrite process_eq, (call_global_bound G f) by done. by rewrite Hf.
  - simpl. unfold mbind, M_bind, bind.
    rewrite check_file_eq, (call_global_bound G f) by done. by rewrite Hf.
Qed.

Lemma extractor_failure_escapes_witness :
  process (with_extract failing_extract) long_bytes (lit "essay.pdf") false
    guest_session
  = (Raise (PyException "ValueError" (lit "cannot parse")), guest_session)
  /\ for_each [ {| name := lit "essay.pdf"; content := long_bytes |};
                {| name := lit "note.txt"; content := short_bytes |} ]
       (check_file (with_extract failing_extract))
       {| py := guest_session; calls := [] |}
     = (Raise (PyException "ValueError" (lit "cannot parse")),
        {| py := guest_session;
           calls := [] ++ [call_of guest_session
                             {| name := lit "essay.pdf";
                                content := long_bytes |}] |}).
Proof.
  apply (extractor_failure_escapes (with_extract failing_extract)
           failing_extract
           {| name := lit "essay.pdf"; content := long_bytes |}
           [ {| name := lit "note.txt"; content := short_bytes |} ]
           {| py := guest_session; calls := [] |}).
  - apply with_extract_lookup.
  - reflexivity.
Defined.

(** X5: the tabs in the module as it is written.  Without an upload both
    placeholder notes are shown and the run returns; with an upload the
    first file is handed to [process], the run ends in [NameError] with
    nothing displayed, and no further file is looked at. *)
Theorem shipped_tabs (i : inputs) (s : state) :
  tabs app_globals i s
  = match in_files i with
    | [] =>
        (Ret tt,
         {| py := show (UiInfo (lit "Login test version"))
                    (show (UiInfo (lit "Database view coming soon")) (py s));
            calls := calls s |})
    | up :: _ =>
        (Raise (NameError "extract"),
         {| py := py s; calls := calls s ++ [call_of (py s) up] |})
    end.
Proof.
  unfold tabs, check_tab, st_file_uploader, mbind, M_bind, bind.
  destruct (in_files i) as [|up rest].
  - cbn [for_each]. unfold ret. rewrite lift_eq. by destruct s.
  - cbn [for_each]. unfold mbind, M_bind, bind.
    by rewrite check_file_eq, call_global_unbound.
Qed.

(** The calls the loop adds are for the leading files of its list, in
    order; all of them when the loop returns. *)
Lemma loop_calls (G : globals) (files : list upload) (s : state) :
  exists k,
    call_args <$> calls (for_each files (check_file G) s).2
    = (call_args <$> calls s) ++ take k (upload_args <$> files)
    /\ ((for_each files (check_file G) s).1 = Ret tt -> length files <= k).
Proof.
  revert s. induction files as [|up rest IH]; intros s.
  - exists 0. simpl. rewrite app_nil_r. split; [done | lia].
  - simpl. unfold mbind, M_bind, bind. rewrite check_file_eq.
    destruct (call_global G "extract" (content up) (name up) (py s))
      as [[text|e] p'].
    + match goal with
      | |- context [for_each rest (check_file G) ?s1] =>
          destruct (IH s1) as (k & Hk & Hret)
      end.
      exists (S k). rewrite Hk. simpl. rewrite fmap_app, <- app_assoc.
      split; [done|]. intros H. apply Hret in H. lia.
    + exists 1. simpl. rewrite fmap_app, take_0. split; [done|].
      discriminate.
Qed.

Lemma tabs_calls (G : globals) (i : inputs) (s : state) :
  calls (tabs G i s).2 = calls (check_tab G i s).2
  /\ ((tabs G i s).1 = Ret tt -> (check_tab G i s).1 = Ret tt).
Proof.
  unfold tabs, mbind, M_bind, bind.
  destruct (check_tab G i s) as [[[]|e] s1]; [|done].
  rewrite lift_eq. done.
Qed.

Lemma check_tab_for_each (G : globals) (i : inputs) (s : state) :
  check_tab G i s = for_each (in_files i) (check_file G) s.
Proof.
  unfold check_tab, st_file_uploader. by destruct (in_files i).
Qed.

(** X6: in every run the calls of [process] are made for the uploaded
    files in the order of the upload, each file at most once and none
    skipped before the last one called; a run that returns has called
    [process] for every uploaded file. *)
Theorem calls_follow_uploads (G : globals) (i : inputs) (p : pystate) :
  call_args <$> calls (run_script G i p).2
    `prefix_of` upload_args <$> in_files i
  /\ ((run_script G i p).1 = Ret tt ->
      call_args <$> calls (run_script G i p).2 = upload_args <$> in_files i).
Proof.
  destruct (run_script_cases G i p)
    as [(e & s' & E & Hc)|(u & p3 & _ & _ & _ & E)]; rewrite E; simpl.
  - rewrite Hc. split; [apply prefix_nil | discriminate].
  - destruct (tabs_calls G i {| py := p3; calls := [] |}) as [-> Hret].
    rewrite check_tab_for_each in *.
    destruct (loop_calls G (in_files i) {| py := p3; calls := [] |})
      as (k & -> & Hk).
    simpl. split.
    + apply prefix_take.
    + intros H. apply Hret, Hk in H.
      apply take_ge. by rewrite length_fmap.
Qed.

(** ** Logging in and out *)

(** A run is the sidebar, then the callback, then the tabs; the first of
    them to raise ends it. *)
Lemma run_script_prefix (G : globals) (i : inputs) (p : pystate) :
  run_script G i p =
  match sidebar i (init_session p).2 with
  | (Raise e, p2) => (Raise e, {| py := p2; calls := [] |})
  | (Ret _, p2) =>
      match login_callback i p2 with
      | (Raise e, p3) => (Raise e, {| py := p3; calls := [] |})
      | (Ret _, p3) => tabs G i {| py := p3; calls := [] |}
      end
  end.
Proof.
  assert (H1 : (init_session p).1 = Ret tt) by by rewrite init_session_eq.
  unfold run_script, script, mbind, M_bind, bind.
  rewrite lift_eq. cbn [py calls]. rewrite H1.
  rewrite lift_eq. cbn [fst snd py calls].
  destruct (sidebar i (init_session p).2) as [[[]|e] p2]; cbn [fst snd];
    [|done].
  rewrite lift_eq. cbn [fst snd py calls].
  by destruct (login_callback i p2) as [[[]|e] p3].
Qed.

Lemma init_session_no_user (p : pystate) :
  no_user p ->
  (init_session p).2
  = {| session_user := Some UNone; cache := cache p;
       loader_calls := loader_calls p; page := page p |}.
Proof.
  intros [H|H]; rewrite init_session_eq; simpl; rewrite H; [done|].
  destruct p; simpl in *. by rewrite H.
Qed.

(** The sidebar of a run without a user. *)
Lemma sidebar_logged_out (i : inputs) (p : pystate) :
  session_user p = Some UNone ->
  sidebar i p
  = (Raise (if in_guest i then RerunException else StopException),
     {| session_user := Some (if in_guest i then guest_user else UNone);
        cache := cache p; loader_calls := loader_calls p;
        page := page p ++ login_form_output i |}).
Proof.
  intros Hu. unfold sidebar, auth_panel, auth_gate, login_form_output.
  destruct p as [su c lc pg]. simpl in Hu. subst su.
  step_through; unfold show, set_session_user; simpl;
    rewrite ?app_nil_r; done.
Qed.

Lemma run_logged_out (G : globals) (i : inputs) (p : pystate) :
  no_user p ->
  run_script G i p
  = (Raise (if in_guest i then RerunException else StopException),
     {| py := {| session_user :=
                   Some (if in_guest i then guest_user else UNone);
                 cache := cache p; loader_calls := loader_calls p;
                 page := page p ++ login_form_output i |};
        calls := [] |}).
Proof.
  intros Hp. rewrite run_script_prefix, (init_session_no_user p Hp).
  by rewrite sidebar_logged_out.
Qed.

(** X7: what a run without a user leaves behind.  The page gains the
    message of the login form and nothing else: the request for an e-mail
    address, the confirmation that the link was sent, or, when Supabase
    fails, its error text, which is shown and not raised.  The guest button
    stores the guest record; otherwise the session still has no user. *)
Theorem logged_out_run (G : globals) (i : inputs) (p : pystate) :
  no_user p ->
  page (py (run_script G i p).2) = page p ++ login_form_output i
  /\ session_user (py (run_script G i p).2)
     = Some (if in_guest i then guest_user else UNone)
  /\ (run_script G i p).1
     = Raise (if in_guest i then RerunException else StopException).
Proof.
  intros Hp. by rewrite (run_logged_out G i p Hp).
Qed.

Lemma logged_out_run_witness :
  page (py (run_script app_globals magic_link_click fresh_session).2)
  = page fresh_session ++ login_form_output magic_link_click
  /\ session_user (py (run_script app_globals magic_link_click
                         fresh_session).2)
     = Some (if in_guest magic_link_click then guest_user else UNone)
  /\ (run_script app_globals magic_link_click fresh_session).1
     = Raise (if in_guest magic_link_click
              then RerunException else StopException).
Proof.
  apply (logged_out_run app_globals magic_link_click fresh_session).
  left. reflexivity.
Defined.

(** The sample: Supabase is down, the page says so. *)
Example magic_link_failure_shown :
  login_form_output magic_link_click
  = [UiError (lit "Error: connection refused")].
Proof. reflexivity. Qed.

(** X8: a run without a user never reaches the login callback or the
    tabs: it is the same run whatever the query parameters, the answer of
    [supabase.auth.get_user()], the uploaded files and the module
    namespace are.  A magic link opened in a session without a user
    therefore logs nobody in. *)
Theorem logged_out_ignores_callback (G G' : globals) (i i' : inputs)
    (p : pystate) :
  no_user p ->
  same_login_form i i' ->
  run_script G i p = run_script G' i' p.
Proof.
  intros Hp (He & Hm & Hs & Hg).
  rewrite !run_logged_out by done.
  unfold login_form_output. by rewrite He, Hm, Hs, Hg.
Qed.

Lemma logged_out_ignores_callback_witness :
  run_script app_globals sample_inputs fresh_session
  = run_script (with_extract latin1_extract) link_opened fresh_session.
Proof.
  apply (logged_out_ignores_callback app_globals
           (with_extract latin1_extract) sample_inputs link_opened
           fresh_session).
  - left. reflexivity.
  - repeat split.
Defined.

(** The sidebar of a run with a user whose e-mail can be read. *)
Lemma sidebar_logged_in (i : inputs) (p : pystate) u email :
  session_user p = Some u ->
  truthy u = true ->
  user_get_email u p = (Ret email, p) ->
  sidebar i p
  = if in_logout i then
      match in_sign_out i with
      | None =>
          (Raise RerunException,
           set_session_user UNone (show (greeting email) p))
      | Some e =>
          (Raise (PyException (failure_class e) (failure_msg e)),
           show (greeting email) p)
      end
    else
      (Ret tt, show (UiInfo (lit "Private & secure")) (show (greeting email) p)).
Proof.
  intros Hu Ht He. unfold sidebar, auth_panel, auth_gate, greeting.
  unfold mbind, M_bind, bind, get_user. rewrite Hu, Ht, He.
  unfold st_success, when, logout, external, put_user, st_rerun, st_stop,
    st_info, raise, ret, mbind, M_bind, bind.
  destruct (in_logout i); [by destruct (in_sign_out i)|].
  simpl. rewrite Hu, Ht. done.
Qed.

Lemma init_session_user (p : pystate) u :
  session_user p = Some u -> (init_session p).2 = p.
Proof. intros H. rewrite init_session_eq. simpl. by rewrite H. Qed.

Lemma login_callback_idle (i : inputs) (p : pystate) :
  in_query i = ∅ -> login_callback i p = (Ret tt, p).
Proof. intros H. unfold login_callback. rewrite H. reflexivity. Qed.

Lemma guest_email (p : pystate) :
  user_get_email guest_user p = (Ret (lit "guest@local"), p).
Proof. reflexivity. Qed.

(** X9: entering as guest.  Pressing the guest button in a session without
    a user ends that run with [st.rerun()]; the run that follows, with no
    logout pressed and no query parameters, greets "guest@local" and goes
    on to the tabs. *)
Theorem guest_login_opens_tabs (G G' : globals) (i i' : inputs)
    (p : pystate) :
  no_user p ->
  in_guest i = true ->
  in_logout i' = false ->
  in_query i' = ∅ ->
  (run_script G i p).1 = Raise RerunException
  /\ session_user (py (run_script G i p).2) = Some guest_user
  /\ run_script G' i' (py (run_script G i p).2)
     = tabs G' i'
         {| py := show (UiInfo (lit "Private & secure"))
                    (show (greeting (lit "guest@local"))
                       (py (run_script G i p).2));
            calls := [] |}.
Proof.
  intros Hp Hg Hl Hq. rewrite (run_logged_out G i p Hp), Hg.
  cbn [fst snd py]. split; [done|]. split; [done|].
  rewrite run_script_prefix.
  erewrite init_session_user by reflexivity.
  erewrite sidebar_logged_in; [|reflexivity|reflexivity|apply guest_email].
  rewrite Hl. by rewrite login_callback_idle.
Qed.

Lemma guest_login_opens_tabs_witness :
  (run_script app_globals guest_click fresh_session).1 = Raise RerunException
  /\ session_user (py (run_script app_globals guest_click fresh_session).2)
     = Some guest_user
  /\ run_script (with_extract latin1_extract) sample_inputs
       (py (run_script app_globals guest_click fresh_session).2)
     = tabs (with_extract latin1_extract) sample_inputs
         {| py := show (UiInfo (lit "Private & secure"))
                    (show (greeting (lit "guest@local"))
                       (py (run_script app_globals guest_click
                              fresh_session).2));
            calls := [] |}.
Proof.
  apply (guest_login_opens_tabs app_globals (with_extract latin1_extract)
           guest_click sample_inputs fresh_session).
  - left. reflexivity.
  - reflexivity.
  - reflexivity.
  - reflexivity.
Defined.

(** X10: logging out.  With a user present whose e-mail can be read, the
    logout button (Supabase signing out without error) ends the run with
    [st.rerun()] and leaves [None] as the session user; whatever the next
    run is, it ends in the sidebar without calling [process]. *)
Theorem logout_closes_session (G G' : globals) (i i' : inputs)
    (p : pystate) u email :
  session_user p = Some u ->
  truthy u = true ->
  user_get_email u p = (Ret email, p) ->
  in_logout i = true ->
  in_sign_out i = None ->
  run_script G i p
  = (Raise RerunException,
     {| py := set_session_user UNone (show (greeting email) p);
        calls := [] |})
  /\ (run_script G' i' (py (run_script G i p).2)).1
     = Raise (if in_guest i' then RerunException else StopException)
  /\ calls (run_script G' i' (py (run_script G i p).2)).2 = [].
Proof.
  intros Hu Ht He Hl Hs.
  assert (E : run_script G i p
              = (Raise RerunException,
                 {| py := set_session_user UNone (show (greeting email) p);
                    calls := [] |})).
  { rewrite run_script_prefix, (init_session_user p u Hu).
    rewrite (sidebar_logged_in i p u email Hu Ht He), Hl, Hs. done. }
  rewrite E. split; [done|]. cbn [fst snd py].
  rewrite run_logged_out by (by right). done.
Qed.

Lemma logout_closes_session_witness :
  run_script app_globals logout_click guest_session
  = (Raise RerunException,
     {| py := set_session_user UNone
                (show (greeting (lit "guest@local")) guest_session);
        calls := [] |})
  /\ (run_script (with_extract latin1_extract) sample_inputs
        (py (run_script app_globals logout_click guest_session).2)).1
     = Raise (if in_guest sample_inputs
              then RerunException else StopException)
  /\ calls (run_script (with_extract latin1_extract) sample_inputs
              (py (run_script app_globals logout_click guest_session).2)).2
     = [].
Proof.
  apply (logout_closes_session app_globals (with_extract latin1_extract)
           logout_click sample_inputs guest_session guest_user
           (lit "guest@local")).
  - reflexivity.
  - reflexivity.
  - reflexivity.
  - reflexivity.
  - reflexivity.
Defined.

(** X11: a failed sign-out.  When [supabase.auth.sign_out()] raises, the
    exception ends the run before line 37 is reached: the session keeps
    its user, who is still logged in on the next run. *)
Theorem failed_logout_keeps_user (G : globals) (i : inputs) (p : pystate)
    u email e :
  session_user p = Some u ->
  truthy u = true ->
  user_get_email u p = (Ret email, p) ->
  in_logout i = true ->
  in_sign_out i = Some e ->
  run_script G i p
  = (Raise (PyException (failure_class e) (failure_msg e)),
     {| py := show (greeting email) p; calls := [] |})
  /\ session_user (py (run_script G i p).2) = Some u.
Proof.
  intros Hu Ht He Hl Hs.
  rewrite run_script_prefix, (init_session_user p u Hu).
  rewrite (sidebar_logged_in i p u email Hu Ht He), Hl, Hs. done.
Qed.

Lemma failed_logout_keeps_user_witness :
  run_script app_globals failed_logout_click guest_session
  = (Raise (PyException (failure_class supabase_down)
              (failure_msg supabase_down)),
     {| py := show (greeting (lit "guest@local")) guest_session;
        calls := [] |})
  /\ session_user (py (run_script app_globals failed_logout_click
                         guest_session).2) = Some guest_user.
Proof.
  apply (failed_logout_keeps_user app_globals failed_logout_click
           guest_session guest_user (lit "guest@local") supabase_down).
  - reflexivity.
  - reflexivity.
  - reflexivity.
  - reflexivity.
  - reflexivity.
Defined.

(** X12: the login callback has two ways to end.  It returns and leaves
    the session user as it was, whatever Supabase answered or raised, the
    failure being displayed; or Supabase handed back a truthy user object,
    which is stored, and the run ends with [st.rerun()].  No exception of
    Supabase leaves the callback. *)
Theorem login_callback_outcomes (i : inputs) (p : pystate) :
  ((login_callback i p).1 = Ret tt
   /\ session_user (login_callback i p).2 = session_user p)
  \/ ((login_callback i p).1 = Raise RerunException
      /\ exists o, in_get_user i = GetUserResponse (Some o)
                   /\ obj_truth o = true
                   /\ session_user (login_callback i p).2 = Some (UObject o)).
Proof.
  unfold login_callback. step_through; eauto 10.
Qed.

(** ** The loaders *)


(** ** The loop, again *)



(** The first upload of the sample is too short, the second is accepted,
    and both are on the page. *)
Example sample_page :
  page (py (tabs (with_extract latin1_extract) sample_inputs
              {| py := guest_session; calls := [] |}).2)
  = [ UiError (lit "note.txt: File too short");
      UiSuccess (lit "essay.pdf uploaded!");
      UiTextArea (lit "Extracted text") (latin1 long_bytes);
      UiInfo (lit "Database view coming soon");
      UiInfo (lit "Login test version") ].
Proof. vm_compute. reflexivity. Qed.

(** ** What a run stores *)

Lemma run_stores_user_witness :
  session_user (py (run_script (with_extract latin1_extract) link_opened
                      guest_session).2) = session_user guest_session
  \/ exists u,
       session_user (py (run_script (with_extract latin1_extract)
                           link_opened guest_session).2) = Some u
       /\ stored_by_script u.
Proof.
  apply (run_stores_user (with_extract latin1_extract) link_opened
           guest_session).
  exact latin1_keeps_user.
Defined.

(** In the sample the magic link is opened while the guest is present:
    the Supabase user replaces the guest and the run starts over. *)
Example link_opened_as_guest :
  (run_script (with_extract latin1_extract) link_opened guest_session).1
  = Raise RerunException
  /\ session_user (py (run_script (with_extract latin1_extract) link_opened
                         guest_session).2)
     = Some (UObject signed_in_user).
Proof. split; vm_compute; reflexivity. Qed.
